(** * xlsx-review: the fixture generator [examples/create_test_pair.py]

    The script builds two workbooks through the openpyxl API, hands each to
    [Workbook.save] and prints a few lines.  This development embeds

    - the workbook data model the script manipulates (ordered sheets, sparse
      cell maps, tagged cell values, the row cursor of [append]);
    - the two construction routines [create_old] and [create_new], statement
      by statement;
    - the entry point, over an abstract serialization sink that may raise.

    Finite maps and the monad notations come from stdpp. *)

From Stdlib Require Import ZArith Ascii String DecimalString.
From stdpp Require Import base option list strings gmap fin_maps.

Local Open Scope string_scope.
Local Open Scope nat_scope.
Local Open Scope list_scope.

(** ** Values and exceptions *)

(** The Python values the script passes as cell contents: [str] and [int]
    literals. *)
Inductive PyVal : Type :=
  | PStr (s : string)
  | PInt (n : Z).

(** Modelled from the spec: the cell value of the data model, "a tagged value,
    one of: empty, string, integer/number, or formula-expression (a string
    beginning with [=])".  The library that implements it (openpyxl's [Cell])
    is not part of the sources.  A formula keeps the assigned string as it is,
    leading [=] included. *)
Inductive CellValue : Type :=
  | Empty
  | Text (s : string)
  | Number (n : Z)
  | Formula (s : string).

#[global] Instance PyVal_eq_dec : EqDecision PyVal.
Proof. solve_decision. Defined.

#[global] Instance CellValue_eq_dec : EqDecision CellValue.
Proof. solve_decision. Defined.

(** The exceptions that can cross the script: a [ValueError] of the workbook
    API and the [OSError] family of the file system. *)
Inductive Exception : Type :=
  | ValueError (msg : string)
  | OSError (errno : nat) (msg : string).

(** ** Cell addresses *)

(** Modelled from the spec: a cell address is "a (column, row) pair; column is
    a 1-based index renderable as a letter sequence (A, B, ..., Z, AA, ...),
    row is a 1-based index".  [coordinate_from_string] reads the rendering the
    script writes ("B3"): upper-case letters in bijective base 26, then a
    decimal row that is not zero. *)
Definition letter_value (c : ascii) : option nat :=
  let n := nat_of_ascii c in
  if Nat.leb 65 n && Nat.leb n 90 then Some (n - 64) else None.

Definition digit_value (c : ascii) : option nat :=
  let n := nat_of_ascii c in
  if Nat.leb 48 n && Nat.leb n 57 then Some (n - 48) else None.

Fixpoint parse_column (acc : nat) (s : string) : nat * string :=
  match s with
  | String c rest =>
      match letter_value c with
      | Some v => parse_column (26 * acc + v) rest
      | None => (acc, s)
      end
  | EmptyString => (acc, s)
  end.

Fixpoint parse_row (acc : nat) (s : string) : option nat :=
  match s with
  | String c rest =>
      match digit_value c with
      | Some v => parse_row (10 * acc + v) rest
      | None => None
      end
  | EmptyString => Some acc
  end.

Definition coordinate_from_string (s : string) : option (nat * nat) :=
  let '(col, rest) := parse_column 0 s in
  match col, rest with
  | 0, _ => None
  | _, EmptyString => None
  | _, _ =>
      match parse_row 0 rest with
      | Some (S r) => Some (col, S r)
      | _ => None
      end
  end.

(** ** Sheets and workbooks *)

(** Modelled from the spec: the tag a value receives when it is stored.  An
    integer is a number; a string "beginning with [=]" is a formula
    expression, any other string is text. *)
Definition bind_value (v : PyVal) : CellValue :=
  match v with
  | PInt n => Number n
  | PStr s => if String.prefix "=" s then Formula s else Text s
  end.

(** Modelled from the spec: a sheet is "a name (string) plus a sparse mapping
    from cell address to Cell value", and owns the row cursor of the
    row-append operation ("an explicit field owned by the Sheet entity"). *)
Record Sheet : Type := mkSheet {
  title : string;
  cells : gmap (nat * nat) CellValue;
  current_row : nat
}.

(** Modelled from the spec: a workbook is "an ordered sequence of Sheets", one
    of which is designated active. *)
Record Workbook : Type := mkWorkbook {
  sheets : list Sheet;
  active_index : nat
}.

#[global] Instance Sheet_eq_dec : EqDecision Sheet.
Proof. solve_decision. Defined.

#[global] Instance Workbook_eq_dec : EqDecision Workbook.
Proof. solve_decision. Defined.

Definition new_sheet (name : string) : Sheet :=
  {| title := name; cells := ∅; current_row := 0 |}.

(** [openpyxl.Workbook()]: a workbook with a single, empty, active sheet (the
    library titles it "Sheet"). *)
Definition Workbook_new : Workbook :=
  {| sheets := [new_sheet "Sheet"]; active_index := 0 |}.

Definition sheetnames (wb : Workbook) : list string := title <$> sheets wb.

(** Assignment to one address.  The cursor never falls behind a used row. *)
Definition sheet_set (a : nat * nat) (v : PyVal) (sh : Sheet) : Sheet :=
  {| title := title sh;
     cells := <[a := bind_value v]> (cells sh);
     current_row := Nat.max (snd a) (current_row sh) |}.

(** Modelled from the spec: the row-append operation "assigns them to
    consecutive columns starting at column 1 of the next unused row,
    advancing an implicit row cursor". *)
Fixpoint put_row (row col : nat) (vs : list PyVal)
    (m : gmap (nat * nat) CellValue) : gmap (nat * nat) CellValue :=
  match vs with
  | [] => m
  | v :: vs' => put_row row (S col) vs' (<[(col, row) := bind_value v]> m)
  end.

Definition sheet_append (vs : list PyVal) (sh : Sheet) : Sheet :=
  let r := S (current_row sh) in
  {| title := title sh;
     cells := put_row r 1 vs (cells sh);
     current_row := r |}.

Definition sheet_rename (name : string) (sh : Sheet) : Sheet :=
  {| title := name; cells := cells sh; current_row := current_row sh |}.

(** ** The construction monad

    A construction routine mutates one workbook object through the handles
    [ws], [ws2], [ws3].  The handles alias sheets of the workbook; they are
    modelled as positions in [sheets], and the workbook is threaded as state.
    A failing call raises. *)
Definition Build (A : Type) : Type := Workbook → Exception + (A * Workbook).

#[global] Instance Build_ret : MRet Build := λ A x wb, inr (x, wb).

#[global] Instance Build_bind : MBind Build := λ A B f m wb,
  match m wb with
  | inl e => inl e
  | inr (x, wb') => f x wb'
  end.

Definition raise_build {A : Type} (e : Exception) : Build A := λ _, inl e.

(** [wb.active] *)
Definition active : Build nat := λ wb, inr (active_index wb, wb).

Definition update_sheet (ws : nat) (f : Sheet → Sheet) : Build unit := λ wb,
  match sheets wb !! ws with
  | Some sh =>
      inr (tt, {| sheets := <[ws := f sh]> (sheets wb);
                  active_index := active_index wb |})
  | None => inl (ValueError "no such worksheet")
  end.

(** *** Sheet titles

    The rules of the library for sheet titles (openpyxl's [_WorkbookChild]
    and [avoid_duplicate_name]; the library is not among the sources).  A
    title must not be empty and must not contain a backslash, an asterisk, a
    question mark, a colon, a slash or a square bracket; a title that is
    taken, letter case apart, gets a number appended, one above the highest
    number found after that title among the titles in use.  The model covers
    ASCII titles, as the script's are: letter case is folded on A-Z only and
    digits are 0-9.  (A title longer than 31 characters only draws a
    warning.) *)
Definition is_invalid_title_char (c : ascii) : bool :=
  bool_decide (nat_of_ascii c ∈ [92; 42; 63; 58; 47; 91; 93]).

(** [INVALID_TITLE_REGEX.search(value)]: the first offending character. *)
Fixpoint invalid_title_search (value : string) : option ascii :=
  match value with
  | EmptyString => None
  | String c rest =>
      if is_invalid_title_char c then Some c else invalid_title_search rest
  end.

Definition lower_char (c : ascii) : ascii :=
  let n := nat_of_ascii c in
  if Nat.leb 65 n && Nat.leb n 90 then ascii_of_nat (n + 32) else c.

(** [s.lower()] *)
Fixpoint lower (s : string) : string :=
  match s with
  | EmptyString => EmptyString
  | String c rest => String (lower_char c) (lower rest)
  end.

(** Whether [p], letter case apart, starts [s]. *)
Fixpoint prefix_ci (p s : string) : bool :=
  match p, s with
  | EmptyString, _ => true
  | String a p', String b s' =>
      Ascii.eqb (lower_char a) (lower_char b) && prefix_ci p' s'
  | String _ _, EmptyString => false
  end.

Fixpoint string_drop (n : nat) (s : string) : string :=
  match n, s with
  | S k, String _ rest => string_drop k rest
  | _, _ => s
  end.

(** The longest run of decimal digits that starts [s], and what follows. *)
Fixpoint take_digits (s : string) : string * string :=
  match s with
  | String c rest =>
      match digit_value c with
      | Some _ => let '(ds, after) := take_digits rest in (String c ds, after)
      | None => (EmptyString, s)
      end
  | EmptyString => (EmptyString, s)
  end.

(** The matches, in the comma-joined titles, of the pattern the library
    builds from [value]: the text of [value] in any letter case, then a run
    of digits, then a comma if there is one.  The digit run of each match is
    returned.  Matches are taken from left to right and do not overlap; [skip]
    counts the characters of the current match that are still to be passed.
    Only called with a [value] that is not empty. *)
Fixpoint findall_counts (value : string) (skip : nat) (joined : string)
    : list string :=
  match joined with
  | EmptyString => []
  | String _ rest =>
      match skip with
      | S k => findall_counts value k rest
      | 0 =>
          if prefix_ci value joined then
            let '(digits, after) :=
              take_digits (string_drop (String.length value) joined) in
            let comma := if String.prefix "," after then 1 else 0 in
            let consumed :=
              String.length value + String.length digits + comma in
            digits :: findall_counts value (consumed - 1) rest
          else findall_counts value 0 rest
      end
  end.

Definition string_of_nat (n : nat) : string :=
  NilEmpty.string_of_uint (Nat.to_uint n).

(** [avoid_duplicate_name(names, value)] *)
Definition avoid_duplicate_name (names : list string) (value : string)
    : string :=
  if bool_decide (Exists (λ n, lower n = lower value) names) then
    match findall_counts value 0 (String.concat "," names) with
    | [] => value
    | matches =>
        let counts :=
          omap (λ idx, if bool_decide (idx = EmptyString) then None
                       else parse_row 0 idx) matches in
        let highest := foldr Nat.max 0 counts in
        String.append value (string_of_nat (highest + 1))
    end
  else value.

(** The title a sheet receives when [value] is assigned as its title in a
    workbook whose sheets are called [names], or the [ValueError] raised;
    [current] is the title the sheet has ([""] while it is being made). *)
Definition checked_title (names : list string) (current value : string)
    : Exception + string :=
  if bool_decide (value = EmptyString) then
    inl (ValueError "Title must have at least one character")
  else
    match invalid_title_search value with
    | Some c =>
        inl (ValueError
               (String.append "Invalid character "
                  (String c " found in sheet title")))
    | None =>
        inr (if bool_decide (current = value) then value
             else avoid_duplicate_name names value)
    end.

(** [ws.title = value] *)
Definition set_title (ws : nat) (value : string) : Build unit := λ wb,
  match sheets wb !! ws with
  | Some sh =>
      match checked_title (sheetnames wb) (title sh) value with
      | inr value' => update_sheet ws (sheet_rename value') wb
      | inl e => inl e
      end
  | None => inl (ValueError "no such worksheet")
  end.

(** [ws.append(values)] *)
Definition append (ws : nat) (vs : list PyVal) : Build unit :=
  update_sheet ws (sheet_append vs).

(** [ws[coord] = value] *)
Definition setitem (ws : nat) (coord : string) (v : PyVal) : Build unit :=
  match coordinate_from_string coord with
  | Some a => update_sheet ws (sheet_set a v)
  | None => raise_build (ValueError coord)
  end.

(** [wb.create_sheet(name)]: a sheet is made, titled [name] (or "Sheet" when
    [name] is empty) under the rules for titles, and goes after the existing
    sheets; its handle is returned. *)
Definition create_sheet (name : string) : Build nat := λ wb,
  let value := if bool_decide (name = EmptyString) then "Sheet" else name in
  match checked_title (sheetnames wb) EmptyString value with
  | inr value' =>
      inr (List.length (sheets wb),
           {| sheets := sheets wb ++ [new_sheet value'];
              active_index := active_index wb |})
  | inl e => inl e
  end.

(** ** The two construction routines *)

Notation "'str' s" := (PStr s) (at level 9, s at level 9, only parsing).
Notation "'int' n" := (PInt n%Z) (at level 9, n at level 9, only parsing).

(** Lines 10-30 of [create_old]. *)
Definition build_old : Build unit :=
  ws ← active;
  set_title ws "Data";;
  append ws [str "Patient ID"; str "Age"; str "Score"; str "Group"];;
  append ws [str "P001"; int 34; int 88; str "Control"];;
  append ws [str "P002"; int 28; int 92; str "Treatment"];;
  append ws [str "P003"; int 45; int 76; str "Control"];;
  append ws [str "P004"; int 31; int 85; str "Treatment"];;
  append ws [str "P005"; int 39; int 90; str "Control"];;
  ws2 ← create_sheet "Summary";
  setitem ws2 "A1" (str "Metric");;
  setitem ws2 "B1" (str "Value");;
  setitem ws2 "A2" (str "Count");;
  setitem ws2 "B2" (int 5);;
  setitem ws2 "A3" (str "Mean Age");;
  setitem ws2 "B3" (str "=AVERAGE(Data!B2:B6)");;
  setitem ws2 "A4" (str "Mean Score");;
  setitem ws2 "B4" (str "=AVERAGE(Data!C2:C6)");;
  setitem ws2 "A5" (str "Total Score");;
  setitem ws2 "B5" (str "=SUM(Data!C2:C6)").

(** Lines 39-67 of [create_new]. *)
Definition build_new : Build unit :=
  ws ← active;
  set_title ws "Data";;
  append ws [str "Patient ID"; str "Age"; str "Score"; str "Group"];;
  append ws [str "P001"; int 34; int 88; str "Control"];;
  append ws [str "P002"; int 29; int 95; str "Treatment"];;
  append ws [str "P003"; int 45; int 76; str "Control"];;
  append ws [str "P004"; int 31; int 85; str "Treatment"];;
  append ws [str "P005"; int 39; int 90; str "Control"];;
  append ws [str "P006"; int 42; int 81; str "Treatment"];;
  ws2 ← create_sheet "Summary";
  setitem ws2 "A1" (str "Metric");;
  setitem ws2 "B1" (str "Value");;
  setitem ws2 "A2" (str "Count");;
  setitem ws2 "B2" (int 6);;
  setitem ws2 "A3" (str "Mean Age");;
  setitem ws2 "B3" (str "=AVERAGE(Data!B2:B7)");;
  setitem ws2 "A4" (str "Median Score");;
  setitem ws2 "B4" (str "=MEDIAN(Data!C2:C7)");;
  setitem ws2 "A5" (str "Total Score");;
  setitem ws2 "B5" (str "=SUM(Data!C2:C7)");;
  ws3 ← create_sheet "Notes";
  setitem ws3 "A1" (str "Date");;
  setitem ws3 "B1" (str "Note");;
  setitem ws3 "A2" (str "2026-02-14");;
  setitem ws3 "B2" (str "Added patient P006, updated summary formulas").

(** [wb = openpyxl.Workbook()] followed by the routine's mutations: the
    workbook the routine hands to [save], or the exception it raised. *)
Definition construct (body : Build unit) : Exception + Workbook :=
  match body Workbook_new with
  | inl e => inl e
  | inr (_, wb) => inr wb
  end.

(** ** Reading a workbook back *)

Definition find_sheet (name : string) (wb : Workbook) : option Sheet :=
  List.find (λ sh, bool_decide (title sh = name)) (sheets wb).

(** [wb[name][coord]] as a partial function: [None] when the sheet does not
    exist, the address is malformed or the cell was never populated. *)
Definition cell_at (wb : Workbook) (name coord : string) : option CellValue :=
  sh ← find_sheet name wb;
  a ← coordinate_from_string coord;
  cells sh !! a.

(** The same by address, for statements that range over all addresses. *)
Definition value_at (wb : Workbook) (name : string) (a : nat * nat)
    : option CellValue :=
  sh ← find_sheet name wb;
  cells sh !! a.

(** Rows that hold at least one cell, and those below the header row. *)
Definition populated_rows (sh : Sheet) : gset nat :=
  set_map snd (dom (cells sh)).

Definition data_rows (sh : Sheet) : gset nat := populated_rows sh ∖ {[1]}.

(** Columns populated in one row. *)
Definition columns_of_row (r : nat) (sh : Sheet) : gset nat :=
  set_map fst (filter (λ a : nat * nat, snd a = r) (dom (cells sh))).

(** The formula cells of a sheet, with the string each one stores. *)
Definition formula_of (v : CellValue) : option string :=
  match v with
  | Formula f => Some f
  | _ => None
  end.

Definition formula_strings (sh : Sheet) : gmap (nat * nat) string :=
  omap formula_of (cells sh).

Definition formulas (wb : Workbook) : list (string * gmap (nat * nat) string) :=
  (λ sh, (title sh, formula_strings sh)) <$> sheets wb.

(** The reference inside a formula string of the shape
    [=FUNCTION(Sheet!A1:B2)]: the sheet name and the two endpoints.  The
    script never reads a formula; this reader only serves to state what the
    literal strings mention. *)
Fixpoint split_on (c : ascii) (s : string) : option (string * string) :=
  match s with
  | EmptyString => None
  | String x rest =>
      if Ascii.eqb x c then Some (EmptyString, rest)
      else '(l, r) ← split_on c rest; Some (String x l, r)
  end.

Definition formula_range (f : string)
    : option (string * (nat * nat) * (nat * nat)) :=
  '(fn, args) ← split_on "(" f;
  '(ref, tail) ← split_on ")" args;
  '(sheet, range) ← split_on "!" ref;
  '(lo, hi) ← split_on ":" range;
  a ← coordinate_from_string lo;
  b ← coordinate_from_string hi;
  if String.prefix "=" fn && bool_decide (tail = "")
  then Some (sheet, a, b) else None.

(** ** The process: files and standard output *)

(** What the script does to the outside, in order: it asks the library for a
    workbook, hands a workbook and a path to [save], prints a line. *)
Inductive Event : Type :=
  | NewWorkbook
  | SaveCall (path : string) (wb : Workbook)
  | PrintLine (line : string).

Record World (Disk : Type) : Type := mkWorld {
  disk : Disk;
  trace : list Event
}.
Arguments mkWorld {Disk} _ _.
Arguments disk {Disk} _.
Arguments trace {Disk} _.

Definition record {Disk : Type} (ev : Event) (w : World Disk) : World Disk :=
  {| disk := disk w; trace := trace w ++ [ev] |}.

(** A statement of the script either completes or raises; the world it
    leaves behind is kept in both cases. *)
Definition IO (Disk A : Type) : Type :=
  World Disk → (Exception + A) * World Disk.

#[global] Instance IO_ret {Disk : Type} : MRet (IO Disk) :=
  λ A x w, (inr x, w).

#[global] Instance IO_bind {Disk : Type} : MBind (IO Disk) := λ A B f m w,
  match m w with
  | (inl e, w') => (inl e, w')
  | (inr x, w') => f x w'
  end.

Section Script.
Context {Disk : Type}.

(** The serialization sink [Workbook.save], an external collaborator: given
    the workbook, the path and the disk it answers with the disk it leaves
    and, when it fails, the exception it raises.  Nothing is assumed about
    the disk a failed call leaves. *)
Variable sink : Workbook → string → Disk → option Exception * Disk.

(** [openpyxl.Workbook()] *)
Definition openpyxl_Workbook : IO Disk Workbook :=
  λ w, (inr Workbook_new, record NewWorkbook w).

(** The mutations of a construction routine, applied to its workbook. *)
Definition run_body (body : Build unit) (wb : Workbook) : IO Disk Workbook :=
  λ w, match body wb with
       | inl e => (inl e, w)
       | inr (_, wb') => (inr wb', w)
       end.

(** [wb.save(path)] *)
Definition save (wb : Workbook) (path : string) : IO Disk unit := λ w,
  let '(r, d) := sink wb path (disk w) in
  let w' := {| disk := d; trace := trace w ++ [SaveCall path wb] |} in
  match r with
  | Some e => (inl e, w')
  | None => (inr tt, w')
  end.

(** [print(line)] *)
Definition print (line : string) : IO Disk unit :=
  λ w, (inr tt, record (PrintLine line) w).

Definition create_old : IO Disk unit :=
  wb ← openpyxl_Workbook;
  wb ← run_body build_old wb;
  save wb "test_old.xlsx";;
  print "Created test_old.xlsx".

Definition create_new : IO Disk unit :=
  wb ← openpyxl_Workbook;
  wb ← run_body build_new wb;
  save wb "test_new.xlsx";;
  print "Created test_new.xlsx".

(** The body of [if __name__ == "__main__":]. *)
Definition main : IO Disk unit :=
  create_old;;
  create_new;;
  print "Done! Run:";;
  print "  xlsx-review --diff test_old.xlsx test_new.xlsx";;
  print "  xlsx-review --textconv test_new.xlsx".
End Script.

(** Two sinks to run the script against: a disk that takes every file, and
    one on which some paths cannot be written. *)
Definition memory_sink (wb : Workbook) (path : string)
    (d : gmap string Workbook) : option Exception * gmap string Workbook :=
  (None, <[path := wb]> d).

Definition readonly_sink (locked : list string) (wb : Workbook) (path : string)
    (d : gmap string Workbook) : option Exception * gmap string Workbook :=
  if bool_decide (path ∈ locked)
  then (Some (OSError 13 "Permission denied"), d)
  else (None, <[path := wb]> d).

(** ** The two workbooks *)

(** The workbook a routine hands to [save].  Both routines complete
    ([construct_build_old], [construct_build_new] below), so the second branch
    is never taken for them. *)
Definition built (body : Build unit) : Workbook :=
  match construct body with
  | inr wb => wb
  | inl _ => Workbook_new
  end.

Definition wb_old : Workbook := built build_old.
Definition wb_new : Workbook := built build_new.

(** The delta cells of the "new" variant, as the spec enumerates them. *)
Definition is_delta (name : string) (a : nat * nat) : bool :=
  (bool_decide (name = "Data") &&
     (bool_decide (a ∈ [(2, 3); (3, 3)]) || bool_decide (snd a = 7)))
  || (bool_decide (name = "Summary") &&
        bool_decide (a ∈ [(2, 2); (2, 3); (1, 4); (2, 4); (2, 5)])).

(** Every cell of a sheet of "old" is, in the sheet of the same name of
    "new", a delta cell, absent, or the same tagged value. *)
Definition agrees_outside_delta (name : string) (old new : Sheet) : Prop :=
  map_Forall
    (λ a v, is_delta name a = true ∨ cells new !! a = None
              ∨ cells new !! a = Some v)
    (cells old).

(** Strings made of ASCII characters only. *)
Fixpoint ascii_only (s : string) : bool :=
  match s with
  | EmptyString => true
  | String c rest => Nat.ltb (nat_of_ascii c) 128 && ascii_only rest
  end.

(** A title the library takes as it is given: not empty, without an invalid
    character, and borne by no sheet of the workbook, letter case apart
    (among ASCII titles, where the model's folding of letter case is the
    library's). *)
Definition fresh_title (name : string) (wb : Workbook) : Prop :=
  name ≠ EmptyString ∧
  invalid_title_search name = None ∧
  Forall (λ n, ascii_only n = true) (name :: sheetnames wb) ∧
  Forall (λ n, lower n ≠ lower name) (sheetnames wb).

(** The invariant of the sheet list: distinct non-empty names, and an active
    sheet that exists and comes first. *)
Definition well_formed (wb : Workbook) : Prop :=
  NoDup (sheetnames wb) ∧
  Forall (λ name, name ≠ "") (sheetnames wb) ∧
  active_index wb = 0 ∧
  0 < List.length (sheets wb).

(** ** Invariants and specifications of the workbook API *)

(** The tag of a stored value agrees with its content: a formula begins with
    [=], a text does not, and no cell is stored empty. *)
Definition tag_ok (v : CellValue) : Prop :=
  match v with
  | Empty => False
  | Text s => String.prefix "=" s = false
  | Number _ => True
  | Formula f => String.prefix "=" f = true
  end.

(** Every cell of a sheet has a 1-based address, lies at or above the row
    cursor and carries a coherent tag. *)
Definition sheet_inv (sh : Sheet) : Prop :=
  map_Forall
    (λ a v, 1 ≤ a.1 ∧ 1 ≤ a.2 ≤ current_row sh ∧ tag_ok v)
    (cells sh).

Definition workbook_inv (wb : Workbook) : Prop :=
  Forall sheet_inv (sheets wb) ∧ active_index wb < List.length (sheets wb).

(** A handle is valid when it designates a sheet of the workbook. *)
Definition valid_handle (ws : nat) (wb : Workbook) : Prop :=
  ws < List.length (sheets wb).

(** Total correctness of a construction step: from a workbook that satisfies
    [P] the step does not raise, and its result and workbook satisfy [Q]. *)
Definition triple {A : Type} (P : Workbook → Prop) (m : Build A)
    (Q : A → Workbook → Prop) : Prop :=
  ∀ wb, P wb → ∃ x wb', m wb = inr (x, wb') ∧ Q x wb'.

(** Successive [append] calls on one sheet, as in lines 12-17 and 41-47. *)
Definition append_all (rows : list (list PyVal)) (sh : Sheet) : Sheet :=
  foldl (λ s row, sheet_append row s) sh rows.

(** The sink calls and the printed lines of a trace, in order. *)
Definition saves (t : list Event) : list (string * Workbook) :=
  omap (λ ev, match ev with SaveCall p wb => Some (p, wb) | _ => None end) t.

Definition printed (t : list Event) : list string :=
  omap (λ ev, match ev with PrintLine l => Some l | _ => None end) t.

(** The column types of the Data table: a header of text, then records made
    of a text, two numbers and a text. *)
Definition data_cell_ok (a : nat * nat) (v : CellValue) : bool :=
  match v with
  | Text _ => bool_decide (a.2 = 1) || bool_decide (a.1 = 1)
              || bool_decide (a.1 = 4)
  | Number _ => negb (bool_decide (a.2 = 1))
                && (bool_decide (a.1 = 2) || bool_decide (a.1 = 3))
  | _ => false
  end.

(** The values of one column below the header, by row. *)
Definition column_below_header (col : nat) (sh : Sheet) : list CellValue :=
  omap (λ r, cells sh !! (col, r)) (seq 2 (current_row sh - 1)).

(** The Summary sheet of a workbook describes its Data sheet: the count in
    B2 is the number of records, the records fill the rows from 2 to the
    cursor, and every formula ranges over one column of "Data" from row 2 to
    the cursor. *)
Definition summary_matches_data (wb : Workbook) : Prop :=
  ∃ data summary,
    find_sheet "Data" wb = Some data ∧
    find_sheet "Summary" wb = Some summary ∧
    cells summary !! (2, 2)
      = Some (Number (Z.of_nat (size (data_rows data)))) ∧
    data_rows data = list_to_set (seq 2 (current_row data - 1)) ∧
    map_Forall
      (λ _ f, Exists
                (λ col, formula_range f
                        = Some ("Data", (col, 2), (col, current_row data)))
                [2; 3])
      (formula_strings summary).

(** The Data sheet of a workbook is a table: every populated row has exactly
    the columns A to D, the cells have the types of their columns, and the
    identifiers of column A are pairwise distinct. *)
Definition data_is_table (wb : Workbook) : Prop :=
  ∃ data,
    find_sheet "Data" wb = Some data ∧
    set_Forall (λ r, columns_of_row r data = list_to_set [1; 2; 3; 4])
               (populated_rows data) ∧
    map_Forall (λ a v, data_cell_ok a v = true) (cells data) ∧
    List.length (column_below_header 1 data) = size (data_rows data) ∧
    NoDup (column_below_header 1 data).

(** * Properties *)

(** ** The data model *)

Lemma coordinate_from_string_row (s : string) (a : nat * nat) :
  coordinate_from_string s = Some a → 1 ≤ a.1 ∧ 1 ≤ a.2.
Proof.
  unfold coordinate_from_string.
  destruct (parse_column 0 s) as [col rest].
  destruct col as [|col]; [done|].
  destruct rest as [|c rest]; [done|].
  destruct (parse_row 0 (String c rest)) as [[|r]|]; [done| |done].
  intros [= <-]. simpl. lia.
Qed.

Lemma bind_value_formula (s : string) :
  String.prefix "=" s = true → bind_value (PStr s) = Formula s.
Proof. intros H. simpl. by rewrite H. Qed.

Lemma bind_value_text (s : string) :
  String.prefix "=" s = false → bind_value (PStr s) = Text s.
Proof. intros H. simpl. by rewrite H. Qed.

(** [put_row] writes the columns [col, col + length vs) of [row] and nothing
    else. *)
Lemma put_row_lookup_other (row col : nat) (vs : list PyVal)
    (m : gmap (nat * nat) CellValue) (a : nat * nat) :
  a.2 ≠ row ∨ a.1 < col ∨ col + List.length vs ≤ a.1 →
  put_row row col vs m !! a = m !! a.
Proof.
  revert col m. induction vs as [|v vs IH]; intros col m Ha; [done|].
  simpl in *. rewrite IH by lia.
  apply lookup_insert_ne. destruct a as [c r]. simpl in *.
  intros [= -> ->]. lia.
Qed.

Lemma put_row_lookup (row col : nat) (vs : list PyVal)
    (m : gmap (nat * nat) CellValue) (i : nat) (v : PyVal) :
  vs !! i = Some v →
  put_row row col vs m !! (col + i, row) = Some (bind_value v).
Proof.
  revert col m i. induction vs as [|x vs IH]; intros col m i Hi; [done|].
  destruct i as [|i]; simpl in *.
  - injection Hi as ->. rewrite put_row_lookup_other by (simpl; lia).
    replace (col + 0) with col by lia. apply lookup_insert_eq.
  - replace (col + S i) with (S col + i) by lia. by apply IH.
Qed.

(** The row-append operation fills the row after the cursor from column 1 and
    moves the cursor there. *)
Lemma sheet_append_lookup (vs : list PyVal) (sh : Sheet) (i : nat) (v : PyVal) :
  vs !! i = Some v →
  cells (sheet_append vs sh) !! (S i, S (current_row sh)) = Some (bind_value v).
Proof. intros Hi. simpl. by apply (put_row_lookup _ 1). Qed.

Lemma sheet_append_cursor (vs : list PyVal) (sh : Sheet) :
  current_row (sheet_append vs sh) = S (current_row sh).
Proof. done. Qed.

Lemma sheet_append_frame (vs : list PyVal) (sh : Sheet) (a : nat * nat) :
  a.2 ≤ current_row sh →
  cells (sheet_append vs sh) !! a = cells sh !! a.
Proof. intros Ha. simpl. apply put_row_lookup_other. lia. Qed.

Lemma sheet_set_lookup (a : nat * nat) (v : PyVal) (sh : Sheet) :
  cells (sheet_set a v sh) !! a = Some (bind_value v).
Proof. simpl. apply lookup_insert_eq. Qed.

Lemma sheet_set_frame (a b : nat * nat) (v : PyVal) (sh : Sheet) :
  a ≠ b → cells (sheet_set a v sh) !! b = cells sh !! b.
Proof. intros Hab. simpl. by apply lookup_insert_ne. Qed.

(** ** The workbook API *)

Lemma update_sheet_inv (ws : nat) (f : Sheet → Sheet) (wb wb' : Workbook) :
  update_sheet ws f wb = inr (tt, wb') →
  ∃ sh, sheets wb !! ws = Some sh ∧
        sheets wb' = <[ws := f sh]> (sheets wb) ∧
        active_index wb' = active_index wb.
Proof.
  unfold update_sheet. destruct (sheets wb !! ws) as [sh|] eqn:E; [|done].
  intros [= <-]. by exists sh.
Qed.

Lemma setitem_inv (ws : nat) (coord : string) (v : PyVal) (wb wb' : Workbook) :
  setitem ws coord v wb = inr (tt, wb') →
  ∃ a sh, coordinate_from_string coord = Some a ∧
          sheets wb !! ws = Some sh ∧
          sheets wb' = <[ws := sheet_set a v sh]> (sheets wb).
Proof.
  unfold setitem. destruct (coordinate_from_string coord) as [a|]; [|done].
  intros (sh & ? & ? & _)%update_sheet_inv. by exists a, sh.
Qed.

Lemma avoid_duplicate_name_fresh (names : list string) (value : string) :
  Forall (λ n, lower n ≠ lower value) names →
  avoid_duplicate_name names value = value.
Proof.
  intros Hfresh. unfold avoid_duplicate_name.
  rewrite bool_decide_eq_false_2; [done|].
  intros (n & Hn & Heq)%Exists_exists.
  by apply (proj1 (Forall_forall _ _) Hfresh n Hn).
Qed.

Lemma avoid_duplicate_name_nonempty (names : list string) (value : string) :
  value ≠ EmptyString → avoid_duplicate_name names value ≠ EmptyString.
Proof.
  intros Hv. unfold avoid_duplicate_name.
  destruct (bool_decide _); [|done].
  destruct (findall_counts _ _ _); [done|].
  destruct value; [done|]. simpl. discriminate.
Qed.

Lemma checked_title_fresh (names : list string) (current value : string) :
  value ≠ EmptyString →
  invalid_title_search value = None →
  Forall (λ n, lower n ≠ lower value) names →
  checked_title names current value = inr value.
Proof.
  intros Hv Hchars Hfresh. unfold checked_title.
  rewrite bool_decide_eq_false_2 by done. rewrite Hchars.
  rewrite avoid_duplicate_name_fresh by done.
  by destruct (bool_decide (current = value)).
Qed.

Lemma checked_title_valid (names : list string) (current value : string) :
  value ≠ EmptyString →
  invalid_title_search value = None →
  ∃ value', checked_title names current value = inr value'
            ∧ value' ≠ EmptyString.
Proof.
  intros Hv Hchars. unfold checked_title.
  rewrite bool_decide_eq_false_2 by done. rewrite Hchars.
  eexists. split; [done|].
  destruct (bool_decide (current = value)); [done|].
  by apply avoid_duplicate_name_nonempty.
Qed.

Lemma checked_title_inv (names : list string) (current value value' : string) :
  checked_title names current value = inr value' → value' ≠ EmptyString.
Proof.
  unfold checked_title.
  destruct (bool_decide (value = EmptyString)) eqn:Hv; [done|].
  apply bool_decide_eq_false in Hv.
  destruct (invalid_title_search value); [done|].
  intros [= <-].
  destruct (bool_decide (current = value)); [done|].
  by apply avoid_duplicate_name_nonempty.
Qed.

(** A sheet created later goes after all existing ones, whatever title it
    ends up with, and the handle returned is its position. *)
Lemma create_sheet_last (name : string) (wb wb' : Workbook) (ws : nat) :
  create_sheet name wb = inr (ws, wb') →
  ws = List.length (sheets wb) ∧
  active_index wb' = active_index wb ∧
  ∃ value, value ≠ EmptyString ∧
           sheets wb' = sheets wb ++ [new_sheet value].
Proof.
  unfold create_sheet.
  destruct (checked_title _ _ _) as [e|value] eqn:E; [done|].
  intros [= <- <-]. split; [done|]. split; [done|].
  exists value. split; [|done]. by eapply checked_title_inv.
Qed.

(** A fresh title is taken as given. *)
Lemma create_sheet_appends (name : string) (wb : Workbook) :
  fresh_title name wb →
  ∃ wb', create_sheet name wb = inr (List.length (sheets wb), wb') ∧
         sheets wb' = sheets wb ++ [new_sheet name] ∧
         sheetnames wb' = sheetnames wb ++ [name] ∧
         active_index wb' = active_index wb.
Proof.
  intros (Hne & Hchars & _ & Hfresh). unfold create_sheet.
  rewrite bool_decide_eq_false_2 by done.
  rewrite checked_title_fresh by done.
  eexists. split; [done|]. unfold sheetnames. simpl.
  by rewrite fmap_app.
Qed.

Lemma create_sheet_well_formed (name : string) (wb wb' : Workbook) (ws : nat) :
  fresh_title name wb → well_formed wb →
  create_sheet name wb = inr (ws, wb') → well_formed wb'.
Proof.
  intros Hfresh (Hdup & Hnames & Hactive & Hlen) Hcreate.
  destruct (create_sheet_appends name wb Hfresh)
    as (wb1 & E & Hsheets & Hsn & Hact).
  rewrite E in Hcreate. injection Hcreate as <- <-.
  destruct Hfresh as (Hne & _ & _ & Hfresh).
  unfold well_formed. rewrite Hsn, Hsheets, Hact, length_app.
  split; [|split; [|split; [done|lia]]].
  - apply NoDup_app. split; [done|]. split; [|apply NoDup_singleton].
    intros n Hn ->%list_elem_of_singleton.
    by apply (proj1 (Forall_forall _ _) Hfresh name Hn).
  - apply Forall_app. split; [done|]. by apply Forall_singleton.
Qed.

(** Both routines run to completion. *)
Lemma construct_build_old : construct build_old = inr wb_old.
Proof. by vm_compute. Qed.

Lemma construct_build_new : construct build_new = inr wb_new.
Proof. by vm_compute. Qed.

(** The title rules off the path of the script: a taken title is numbered,
    an empty name gives the default title, an invalid or empty title is
    refused. *)
Example create_sheet_taken_title :
  create_sheet "Summary" wb_old
  = inr (2, {| sheets := sheets wb_old ++ [new_sheet "Summary1"];
               active_index := 0 |}).
Proof. by vm_compute. Qed.

Example create_sheet_empty_name :
  create_sheet "" Workbook_new
  = inr (1, {| sheets := [new_sheet "Sheet"; new_sheet "Sheet1"];
               active_index := 0 |}).
Proof. by vm_compute. Qed.

Example create_sheet_invalid_title :
  create_sheet "a/b" wb_old
  = inl (ValueError "Invalid character / found in sheet title").
Proof. by vm_compute. Qed.

Example set_title_empty :
  set_title 0 "" wb_old
  = inl (ValueError "Title must have at least one character").
Proof. by vm_compute. Qed.

Example set_title_taken :
  ∃ wb, set_title 0 "summary" wb_old = inr (tt, wb) ∧
        sheetnames wb = ["summary1"; "Summary"].
Proof. eexists. split; by vm_compute. Qed.

(** The titles the routines give are fresh where they are given. *)
Example fresh_title_Summary :
  ∃ wb, set_title 0 "Data" Workbook_new = inr (tt, wb) ∧
        fresh_title "Summary" wb.
Proof.
  eexists. split; [by vm_compute|].
  split; [done|]. split; [reflexivity|]. split; compute_done.
Qed.

Example fresh_title_Notes : fresh_title "Notes" wb_old.
Proof. split; [done|]. split; [reflexivity|]. split; compute_done. Qed.

(** ** The scenario of the fixture pair *)

(** C1.  Building "old" succeeds and gives a Data sheet whose row 3 is the
    P002 record with Age 28 and Score 92 (columns B and C, under the header
    labels "Age" and "Score"), and a Summary sheet whose row 2 is labelled
    "Count" and holds 5.  Building "new" succeeds and gives Age 29 and
    Score 95 in the same row, 6 in Summary row 2, and a third sheet "Notes"
    with A1 = "Date" and B1 = "Note"; "old" has no sheet "Notes". *)
Theorem scenario_old_new :
  construct build_old = inr wb_old ∧
  construct build_new = inr wb_new ∧
  (cell_at wb_old "Data" "B1" = Some (Text "Age") ∧
   cell_at wb_old "Data" "C1" = Some (Text "Score") ∧
   cell_at wb_old "Data" "A3" = Some (Text "P002") ∧
   cell_at wb_old "Data" "B3" = Some (Number 28) ∧
   cell_at wb_old "Data" "C3" = Some (Number 92) ∧
   cell_at wb_old "Summary" "A2" = Some (Text "Count") ∧
   cell_at wb_old "Summary" "B2" = Some (Number 5)) ∧
  (cell_at wb_new "Data" "B1" = Some (Text "Age") ∧
   cell_at wb_new "Data" "C1" = Some (Text "Score") ∧
   cell_at wb_new "Data" "A3" = Some (Text "P002") ∧
   cell_at wb_new "Data" "B3" = Some (Number 29) ∧
   cell_at wb_new "Data" "C3" = Some (Number 95) ∧
   cell_at wb_new "Summary" "A2" = Some (Text "Count") ∧
   cell_at wb_new "Summary" "B2" = Some (Number 6)) ∧
  (sheetnames wb_new !! 2 = Some "Notes" ∧
   cell_at wb_new "Notes" "A1" = Some (Text "Date") ∧
   cell_at wb_new "Notes" "B1" = Some (Text "Note")) ∧
  (("Notes" ∉ sheetnames wb_old) ∧ find_sheet "Notes" wb_old = None).
Proof.
  split; [apply construct_build_old|].
  split; [apply construct_build_new|].
  repeat split; try (by vm_compute).
  compute_done.
Qed.

(** C2.  Below its header row the Data sheet of "old" has exactly the five
    rows 2..6 and that of "new" exactly the six rows 2..7; the formula cells
    of the Summary sheet of "new" are B3, B4 and B5, and each of their strings
    refers to a range of the Data sheet that runs from row 2 to row 7 of one
    column. *)
Theorem row_counts :
  (∃ sh, find_sheet "Data" wb_old = Some sh ∧
         1 ∈ populated_rows sh ∧
         data_rows sh = list_to_set [2; 3; 4; 5; 6] ∧
         size (data_rows sh) = 5) ∧
  (∃ sh, find_sheet "Data" wb_new = Some sh ∧
         1 ∈ populated_rows sh ∧
         data_rows sh = list_to_set [2; 3; 4; 5; 6; 7] ∧
         size (data_rows sh) = 6) ∧
  (∃ sh, find_sheet "Summary" wb_new = Some sh ∧
         dom (formula_strings sh) = list_to_set [(2, 3); (2, 4); (2, 5)] ∧
         ∀ a f, formula_strings sh !! a = Some f →
                ∃ col, formula_range f = Some ("Data", (col, 2), (col, 7))).
Proof.
  split; [|split].
  - eexists. split; [by vm_compute|].
    split; [|split]; [|by vm_compute..].
    compute_done.
  - eexists. split; [by vm_compute|].
    split; [|split]; [|by vm_compute..].
    compute_done.
  - eexists. split; [by vm_compute|]. split; [by vm_compute|].
    apply (map_Forall_impl
             (λ (_ : nat * nat) f,
                Exists (λ col, formula_range f
                               = Some ("Data", (col, 2), (col, 7))) [2; 3])).
    + compute_done.
    + intros _ f (col & _ & ?)%Exists_exists. by exists col.
Qed.

(** ** The delta between the two workbooks *)

Lemma shared_sheets_agree (name : string) :
  name ∈ ["Data"; "Summary"] →
  ∃ old new, find_sheet name wb_old = Some old ∧
             find_sheet name wb_new = Some new ∧
             agrees_outside_delta name old new.
Proof.
  intros Hname.
  apply elem_of_cons in Hname as [-> | Hname];
    [|apply list_elem_of_singleton in Hname as ->].
  - do 2 eexists. split; [by vm_compute|]. split; [by vm_compute|].
    unfold agrees_outside_delta. compute_done.
  - do 2 eexists. split; [by vm_compute|]. split; [by vm_compute|].
    unfold agrees_outside_delta. compute_done.
Qed.

(** C3.  On the shared sheets "Data" and "Summary", an address populated in
    both workbooks and outside the enumerated delta cells (Data B3, C3 and
    row 7; Summary B2, B3, A4, B4, B5) holds the same value with the same tag
    in "old" and in "new". *)
Theorem minimal_delta (name : string) (a : nat * nat) (v_old v_new : CellValue) :
  name ∈ ["Data"; "Summary"] →
  is_delta name a = false →
  value_at wb_old name a = Some v_old →
  value_at wb_new name a = Some v_new →
  v_old = v_new.
Proof.
  intros Hname Hdelta Hold Hnew.
  destruct (shared_sheets_agree name Hname) as (old & new & Eo & En & Hagree).
  unfold value_at in Hold, Hnew. rewrite Eo in Hold. rewrite En in Hnew.
  simpl in Hold, Hnew.
  destruct (Hagree a v_old Hold) as [H | [H | H]]; congruence.
Qed.

Lemma minimal_delta_witness :
  "Summary" ∈ ["Data"; "Summary"] ∧
  is_delta "Summary" (1, 4) = true ∧
  is_delta "Summary" (1, 3) = false ∧
  value_at wb_old "Summary" (1, 3) = Some (Text "Mean Age") ∧
  value_at wb_new "Summary" (1, 3) = Some (Text "Mean Age") ∧
  Text "Mean Age" = Text "Mean Age".
Proof.
  split; [compute_done|]. split; [reflexivity|]. split; [reflexivity|].
  split; [vm_compute; reflexivity|]. split; [vm_compute; reflexivity|].
  apply (minimal_delta "Summary" (1, 3)).
  - compute_done.
  - reflexivity.
  - vm_compute; reflexivity.
  - vm_compute; reflexivity.
Defined.

(** C4.  The sheets of "old" are Data, Summary and those of "new" are Data,
    Summary, Notes, in that order: "new" is "old" with "Notes" appended.  The
    names of "new" that "old" lacks are exactly {"Notes"}, and every name of
    "old" occurs in "new". *)
Theorem structural_delta :
  sheetnames wb_old = ["Data"; "Summary"] ∧
  sheetnames wb_new = ["Data"; "Summary"; "Notes"] ∧
  sheetnames wb_new = sheetnames wb_old ++ ["Notes"] ∧
  (list_to_set (sheetnames wb_new) : gset string)
    ∖ list_to_set (sheetnames wb_old) = {["Notes"]} ∧
  sheetnames wb_old ⊆ sheetnames wb_new.
Proof.
  assert (Ho : sheetnames wb_old = ["Data"; "Summary"]) by (by vm_compute).
  assert (Hn : sheetnames wb_new = ["Data"; "Summary"; "Notes"])
    by (by vm_compute).
  rewrite Ho, Hn. split; [done|]. split; [done|]. split; [done|]. split.
  - apply set_eq. intros x.
    rewrite elem_of_difference, !elem_of_list_to_set, elem_of_singleton.
    rewrite !elem_of_cons, !elem_of_nil. split.
    + intros [[-> | [-> | [-> | []]]] Hx]; [exfalso; apply Hx; auto..|done].
    + intros ->. split; [auto|]. intros [? | [? | []]]; discriminate.
  - intros x. rewrite !elem_of_cons. tauto.
Qed.

(** ** Formula cells *)

(** An assignment stores the tagged form of the value it is given. *)
Lemma setitem_stores (ws : nat) (coord : string) (v : PyVal) (wb wb' : Workbook) :
  setitem ws coord v wb = inr (tt, wb') →
  ∃ a sh', coordinate_from_string coord = Some a ∧
           sheets wb' !! ws = Some sh' ∧
           cells sh' !! a = Some (bind_value v).
Proof.
  intros (a & sh & Ha & Hsh & ->)%setitem_inv.
  exists a, (sheet_set a v sh). split; [done|]. split.
  - apply list_lookup_insert_eq. by eapply lookup_lt_Some.
  - apply sheet_set_lookup.
Qed.

(** An assignment changes no other address of its sheet and no other sheet. *)
Lemma setitem_frame (ws : nat) (coord : string) (v : PyVal) (wb wb' : Workbook)
    (ws' : nat) (b : nat * nat) (sh : Sheet) :
  setitem ws coord v wb = inr (tt, wb') →
  sheets wb !! ws' = Some sh →
  ws' ≠ ws ∨ coordinate_from_string coord ≠ Some b →
  ∃ sh', sheets wb' !! ws' = Some sh' ∧ cells sh' !! b = cells sh !! b.
Proof.
  intros (a & sh0 & Ha & Hsh0 & ->)%setitem_inv Hsh Hne.
  destruct (decide (ws' = ws)) as [-> | Hws].
  - exists (sheet_set a v sh0). split.
    + apply list_lookup_insert_eq. by eapply lookup_lt_Some.
    + assert (sh0 = sh) as -> by congruence.
      apply sheet_set_frame. destruct Hne as [? | Hne]; congruence.
  - exists sh. by rewrite list_lookup_insert_ne.
Qed.

(** C5.  A string that begins with [=] is stored, by the assignment that
    receives it, as a formula holding that very string, and assignments to
    other addresses leave it as it is.  The formula cells of the two
    workbooks are those of the Summary sheets, each holding the literal of
    its assignment, all beginning with [=]; Summary B3 of "new" holds
    "=AVERAGE(Data!B2:B7)". *)
Theorem formula_opacity :
  (∀ ws coord s wb wb',
      String.prefix "=" s = true →
      setitem ws coord (PStr s) wb = inr (tt, wb') →
      ∃ a sh', coordinate_from_string coord = Some a ∧
               sheets wb' !! ws = Some sh' ∧
               cells sh' !! a = Some (Formula s)) ∧
  (∀ ws coord v wb wb' ws' b sh,
      setitem ws coord v wb = inr (tt, wb') →
      sheets wb !! ws' = Some sh →
      ws' ≠ ws ∨ coordinate_from_string coord ≠ Some b →
      ∃ sh', sheets wb' !! ws' = Some sh' ∧ cells sh' !! b = cells sh !! b) ∧
  formulas wb_old =
    [("Data", ∅);
     ("Summary", list_to_map [((2, 3), "=AVERAGE(Data!B2:B6)");
                              ((2, 4), "=AVERAGE(Data!C2:C6)");
                              ((2, 5), "=SUM(Data!C2:C6)")])] ∧
  formulas wb_new =
    [("Data", ∅);
     ("Summary", list_to_map [((2, 3), "=AVERAGE(Data!B2:B7)");
                              ((2, 4), "=MEDIAN(Data!C2:C7)");
                              ((2, 5), "=SUM(Data!C2:C7)")]);
     ("Notes", ∅)] ∧
  Forall (λ p, map_Forall (λ _ f, String.prefix "=" f = true) p.2)
         (formulas wb_old ++ formulas wb_new) ∧
  cell_at wb_new "Summary" "B3" = Some (Formula "=AVERAGE(Data!B2:B7)").
Proof.
  split.
  { intros ws coord s wb wb' Hs Hset.
    destruct (setitem_stores _ _ _ _ _ Hset) as (a & sh' & ? & ? & Hv).
    rewrite (bind_value_formula s Hs) in Hv. by exists a, sh'. }
  split; [apply setitem_frame|].
  split; [by vm_compute|]. split; [by vm_compute|].
  split; [compute_done|]. by vm_compute.
Qed.

(** ** Sheet names *)

(** Operations on one sheet move no sheet. *)
Lemma update_sheet_positions (ws : nat) (f : Sheet → Sheet) (wb wb' : Workbook) :
  update_sheet ws f wb = inr (tt, wb') →
  List.length (sheets wb') = List.length (sheets wb) ∧
  ∀ i, i ≠ ws → sheets wb' !! i = sheets wb !! i.
Proof.
  intros (sh & _ & -> & _)%update_sheet_inv. split.
  - apply length_insert.
  - intros i Hi. by apply list_lookup_insert_ne.
Qed.

(** C9.  In both workbooks the sheet names are pairwise distinct and none is
    empty; the active sheet is the first one, the sheet every workbook starts
    with, titled "Data" by the routine; the sheets made by [create_sheet]
    follow it in the order of the calls.  For [create_sheet] always puts the
    sheet it makes after the sheets that exist, under a title that is not
    empty, and returns its position; a fresh title, such as the routines
    give, is taken as given and keeps the names distinct; and the operations
    on one sheet move no sheet. *)
Theorem sheet_name_invariants :
  well_formed wb_old ∧ well_formed wb_new ∧
  sheetnames wb_old = ["Data"; "Summary"] ∧
  sheetnames wb_new = ["Data"; "Summary"; "Notes"] ∧
  sheetnames Workbook_new = ["Sheet"] ∧
  (∀ name wb wb' ws,
      create_sheet name wb = inr (ws, wb') →
      ws = List.length (sheets wb) ∧
      active_index wb' = active_index wb ∧
      ∃ value, value ≠ EmptyString ∧
               sheets wb' = sheets wb ++ [new_sheet value]) ∧
  (∀ name wb,
      fresh_title name wb →
      ∃ wb', create_sheet name wb = inr (List.length (sheets wb), wb') ∧
             sheets wb' = sheets wb ++ [new_sheet name] ∧
             sheetnames wb' = sheetnames wb ++ [name] ∧
             active_index wb' = active_index wb ∧
             (well_formed wb → well_formed wb')) ∧
  (∀ ws f wb wb',
      update_sheet ws f wb = inr (tt, wb') →
      List.length (sheets wb') = List.length (sheets wb) ∧
      ∀ i, i ≠ ws → sheets wb' !! i = sheets wb !! i).
Proof.
  assert (Ho : sheetnames wb_old = ["Data"; "Summary"]) by (by vm_compute).
  assert (Hn : sheetnames wb_new = ["Data"; "Summary"; "Notes"])
    by (by vm_compute).
  split; [|split].
  - unfold well_formed. rewrite Ho. split; [compute_done|].
    split; [by repeat constructor|]. split; [by vm_compute|].
    vm_compute. lia.
  - unfold well_formed. rewrite Hn. split; [compute_done|].
    split; [by repeat constructor|]. split; [by vm_compute|].
    vm_compute. lia.
  - split; [done|]. split; [done|]. split; [done|].
    split; [apply create_sheet_last|].
    split; [|apply update_sheet_positions].
    intros name wb Hfresh.
    destruct (create_sheet_appends name wb Hfresh)
      as (wb' & E & Hsheets & Hsn & Hact).
    exists wb'. do 4 (split; [done|]).
    intros Hwf. by eapply create_sheet_well_formed.
Qed.

(** ** The inserted row *)

(** C10.  The Data sheet of "new" has the rows of the Data sheet of "old" and
    one more, row 7, which is its last row; row 7 occupies exactly the columns
    A to D and holds "P006", 42, 81, "Treatment". *)
Theorem inserted_row :
  ∃ old new,
    find_sheet "Data" wb_old = Some old ∧
    find_sheet "Data" wb_new = Some new ∧
    populated_rows new = populated_rows old ∪ {[7]} ∧
    (7 ∉ populated_rows old) ∧
    set_Forall (λ r, r ≤ 7) (populated_rows new) ∧
    current_row old = 6 ∧ current_row new = 7 ∧
    columns_of_row 7 new = list_to_set [1; 2; 3; 4] ∧
    cell_at wb_new "Data" "A7" = Some (Text "P006") ∧
    cell_at wb_new "Data" "B7" = Some (Number 42) ∧
    cell_at wb_new "Data" "C7" = Some (Number 81) ∧
    cell_at wb_new "Data" "D7" = Some (Text "Treatment").
Proof.
  do 2 eexists. split; [by vm_compute|]. split; [by vm_compute|].
  split; [by vm_compute|]. split; [compute_done|]. split; [compute_done|].
  repeat split; by vm_compute.
Qed.

(** ** The entry point *)

Section ScriptFacts.
Context {Disk : Type}.
Variable sink : Workbook → string → Disk → option Exception * Disk.

Lemma IO_bind_unfold {A B : Type} (m : IO Disk A) (f : A → IO Disk B)
    (w : World Disk) :
  (m ≫= f) w = match m w with
               | (inl e, w') => (inl e, w')
               | (inr x, w') => f x w'
               end.
Proof. reflexivity. Qed.

Lemma run_body_old (w : World Disk) :
  run_body build_old Workbook_new w = (inr wb_old, w).
Proof.
  unfold run_body.
  assert (build_old Workbook_new = inr (tt, wb_old)) as -> by (by vm_compute).
  reflexivity.
Qed.

Lemma run_body_new (w : World Disk) :
  run_body build_new Workbook_new w = (inr wb_new, w).
Proof.
  unfold run_body.
  assert (build_new Workbook_new = inr (tt, wb_new)) as -> by (by vm_compute).
  reflexivity.
Qed.

Lemma save_ok (wb : Workbook) (path : string) (w : World Disk) (d : Disk) :
  sink wb path (disk w) = (None, d) →
  save sink wb path w
  = (inr tt, {| disk := d; trace := trace w ++ [SaveCall path wb] |}).
Proof. intros H. unfold save. by rewrite H. Qed.

Lemma save_raises (wb : Workbook) (path : string) (w : World Disk)
    (e : Exception) (d : Disk) :
  sink wb path (disk w) = (Some e, d) →
  save sink wb path w
  = (inl e, {| disk := d; trace := trace w ++ [SaveCall path wb] |}).
Proof. intros H. unfold save. by rewrite H. Qed.

(** [create_old()] when the sink accepts the workbook, and when it raises. *)
Lemma create_old_ok (w : World Disk) (d : Disk) :
  sink wb_old "test_old.xlsx" (disk w) = (None, d) →
  create_old sink w
  = (inr tt,
     {| disk := d;
        trace := trace w ++ [NewWorkbook; SaveCall "test_old.xlsx" wb_old;
                             PrintLine "Created test_old.xlsx"] |}).
Proof.
  intros H. unfold create_old.
  rewrite IO_bind_unfold. unfold openpyxl_Workbook.
  rewrite IO_bind_unfold, run_body_old.
  rewrite IO_bind_unfold, (save_ok _ _ _ d) by done.
  unfold print, record. simpl. by rewrite <- !app_assoc.
Qed.

Lemma create_old_raises (w : World Disk) (e : Exception) (d : Disk) :
  sink wb_old "test_old.xlsx" (disk w) = (Some e, d) →
  create_old sink w
  = (inl e,
     {| disk := d;
        trace := trace w
                   ++ [NewWorkbook; SaveCall "test_old.xlsx" wb_old] |}).
Proof.
  intros H. unfold create_old.
  rewrite IO_bind_unfold. unfold openpyxl_Workbook.
  rewrite IO_bind_unfold, run_body_old.
  rewrite IO_bind_unfold, (save_raises _ _ _ e d) by done.
  unfold record. simpl. by rewrite <- !app_assoc.
Qed.

Lemma create_new_ok (w : World Disk) (d : Disk) :
  sink wb_new "test_new.xlsx" (disk w) = (None, d) →
  create_new sink w
  = (inr tt,
     {| disk := d;
        trace := trace w ++ [NewWorkbook; SaveCall "test_new.xlsx" wb_new;
                             PrintLine "Created test_new.xlsx"] |}).
Proof.
  intros H. unfold create_new.
  rewrite IO_bind_unfold. unfold openpyxl_Workbook.
  rewrite IO_bind_unfold, run_body_new.
  rewrite IO_bind_unfold, (save_ok _ _ _ d) by done.
  unfold print, record. simpl. by rewrite <- !app_assoc.
Qed.

Lemma create_new_raises (w : World Disk) (e : Exception) (d : Disk) :
  sink wb_new "test_new.xlsx" (disk w) = (Some e, d) →
  create_new sink w
  = (inl e,
     {| disk := d;
        trace := trace w
                   ++ [NewWorkbook; SaveCall "test_new.xlsx" wb_new] |}).
Proof.
  intros H. unfold create_new.
  rewrite IO_bind_unfold. unfold openpyxl_Workbook.
  rewrite IO_bind_unfold, run_body_new.
  rewrite IO_bind_unfold, (save_raises _ _ _ e d) by done.
  unfold record. simpl. by rewrite <- !app_assoc.
Qed.
End ScriptFacts.

(** C7.  When both calls of the sink succeed, the entry point completes, and
    what it did is, in order: build "old" and hand it to the sink with the
    path "test_old.xlsx", print the confirmation for that file, build "new"
    and hand it to the sink with the path "test_new.xlsx", print the
    confirmation for that file, print "Done! Run:" and the two command lines
    of the downstream tool, which name the two paths.  The sink is called
    these two times and no more. *)
Theorem main_success {Disk : Type}
    (sink : Workbook → string → Disk → option Exception * Disk)
    (w : World Disk) (d1 d2 : Disk) :
  sink wb_old "test_old.xlsx" (disk w) = (None, d1) →
  sink wb_new "test_new.xlsx" d1 = (None, d2) →
  construct build_old = inr wb_old ∧
  construct build_new = inr wb_new ∧
  main sink w
  = (inr tt,
     {| disk := d2;
        trace := trace w ++
          [NewWorkbook;
           SaveCall "test_old.xlsx" wb_old;
           PrintLine "Created test_old.xlsx";
           NewWorkbook;
           SaveCall "test_new.xlsx" wb_new;
           PrintLine "Created test_new.xlsx";
           PrintLine "Done! Run:";
           PrintLine "  xlsx-review --diff test_old.xlsx test_new.xlsx";
           PrintLine "  xlsx-review --textconv test_new.xlsx"] |}).
Proof.
  intros H1 H2.
  split; [apply construct_build_old|]. split; [apply construct_build_new|].
  unfold main.
  rewrite IO_bind_unfold, (create_old_ok sink w d1 H1).
  rewrite IO_bind_unfold, (create_new_ok sink _ d2) by done.
  unfold print, record, mbind, IO_bind. simpl. by rewrite <- !app_assoc.
Qed.

Lemma main_success_witness :
  let w0 : World (gmap string Workbook) := {| disk := ∅; trace := [] |} in
  let d1 : gmap string Workbook := {["test_old.xlsx" := wb_old]} in
  let d2 : gmap string Workbook := <["test_new.xlsx" := wb_new]> d1 in
  memory_sink wb_old "test_old.xlsx" (disk w0) = (None, d1) ∧
  memory_sink wb_new "test_new.xlsx" d1 = (None, d2) ∧
  main memory_sink w0
  = (inr tt,
     {| disk := d2;
        trace :=
          [NewWorkbook;
           SaveCall "test_old.xlsx" wb_old;
           PrintLine "Created test_old.xlsx";
           NewWorkbook;
           SaveCall "test_new.xlsx" wb_new;
           PrintLine "Created test_new.xlsx";
           PrintLine "Done! Run:";
           PrintLine "  xlsx-review --diff test_old.xlsx test_new.xlsx";
           PrintLine "  xlsx-review --textconv test_new.xlsx"] |}).
Proof.
  intros w0 d1 d2.
  split; [reflexivity|]. split; [reflexivity|].
  apply (main_success memory_sink w0 d1 d2); reflexivity.
Defined.

(** C8.  An exception raised by the sink ends the run at once and is the
    result of the run, as raised.  When the sink raises on "old", the run
    ends with that call: nothing is printed, no second workbook is built and
    the sink is not called again.  When it raises on "new", the run ends with
    that call, after the confirmation for "old" and before any further
    output. *)
Theorem save_failure_aborts {Disk : Type}
    (sink : Workbook → string → Disk → option Exception * Disk)
    (w : World Disk) :
  (∀ e d,
      sink wb_old "test_old.xlsx" (disk w) = (Some e, d) →
      main sink w
      = (inl e,
         {| disk := d;
            trace := trace w ++
              [NewWorkbook; SaveCall "test_old.xlsx" wb_old] |})) ∧
  (∀ d1 e d2,
      sink wb_old "test_old.xlsx" (disk w) = (None, d1) →
      sink wb_new "test_new.xlsx" d1 = (Some e, d2) →
      main sink w
      = (inl e,
         {| disk := d2;
            trace := trace w ++
              [NewWorkbook;
               SaveCall "test_old.xlsx" wb_old;
               PrintLine "Created test_old.xlsx";
               NewWorkbook;
               SaveCall "test_new.xlsx" wb_new] |})).
Proof.
  split.
  - intros e d H. unfold main.
    by rewrite IO_bind_unfold, (create_old_raises sink w e d H).
  - intros d1 e d2 H1 H2. unfold main.
    rewrite IO_bind_unfold, (create_old_ok sink w d1 H1).
    rewrite IO_bind_unfold, (create_new_raises sink _ e d2) by done.
    simpl. by rewrite <- !app_assoc.
Qed.

Lemma save_failure_aborts_witness :
  let w0 : World (gmap string Workbook) := {| disk := ∅; trace := [] |} in
  let denied := OSError 13 "Permission denied" in
  main (readonly_sink ["test_old.xlsx"]) w0
  = (inl denied,
     {| disk := ∅;
        trace := [NewWorkbook; SaveCall "test_old.xlsx" wb_old] |}) ∧
  main (readonly_sink ["test_new.xlsx"]) w0
  = (inl denied,
     {| disk := {["test_old.xlsx" := wb_old]};
        trace := [NewWorkbook;
                  SaveCall "test_old.xlsx" wb_old;
                  PrintLine "Created test_old.xlsx";
                  NewWorkbook;
                  SaveCall "test_new.xlsx" wb_new] |}).
Proof.
  intros w0 denied. split.
  - apply (proj1 (save_failure_aborts (readonly_sink ["test_old.xlsx"]) w0)
             denied ∅).
    reflexivity.
  - apply (proj2 (save_failure_aborts (readonly_sink ["test_new.xlsx"]) w0)
             {["test_old.xlsx" := wb_old]} denied {["test_old.xlsx" := wb_old]}).
    + reflexivity.
    + reflexivity.
Defined.

(** * Further properties *)

(** ** Successive appends *)

(** Appends leave the rows at or above the cursor as they are. *)
Lemma append_all_frame (rows : list (list PyVal)) (sh : Sheet) (a : nat * nat) :
  a.2 ≤ current_row sh →
  cells (append_all rows sh) !! a = cells sh !! a.
Proof.
  revert sh. induction rows as [|row rows IH]; intros sh Ha; [done|].
  simpl. rewrite IH by (rewrite sheet_append_cursor; lia).
  by apply sheet_append_frame.
Qed.

Lemma append_all_cursor (rows : list (list PyVal)) (sh : Sheet) :
  current_row (append_all rows sh) = current_row sh + List.length rows.
Proof.
  revert sh. induction rows as [|row rows IH]; intros sh; simpl; [lia|].
  rewrite IH, sheet_append_cursor. lia.
Qed.

(** X1.  Rows appended one after the other land on consecutive rows after the
    cursor, in the order of the calls: value [j] of the [i]-th appended row is
    found, tagged, in column [j+1] of row [cursor + i + 1], whatever was
    appended after it; and the cursor ends [length rows] further. *)
Theorem append_rows_in_order (rows : list (list PyVal)) (sh : Sheet)
    (i j : nat) (row : list PyVal) (v : PyVal) :
  rows !! i = Some row →
  row !! j = Some v →
  cells (append_all rows sh) !! (S j, current_row sh + S i)
    = Some (bind_value v) ∧
  current_row (append_all rows sh) = current_row sh + List.length rows.
Proof.
  intros Hi Hj. split; [|apply append_all_cursor].
  revert sh i Hi. induction rows as [|r0 rows IH]; intros sh i Hi; [done|].
  destruct i as [|i]; simpl in *.
  - injection Hi as ->.
    rewrite append_all_frame by (rewrite sheet_append_cursor; simpl; lia).
    replace (current_row sh + 1) with (S (current_row sh)) by lia.
    by apply sheet_append_lookup.
  - rewrite <- (IH (sheet_append r0 sh) i Hi).
    rewrite sheet_append_cursor. f_equal. f_equal. lia.
Qed.

Lemma append_rows_in_order_witness :
  let rows := [[PStr "Patient ID"; PStr "Age"]; [PStr "P001"; PInt 34]] in
  rows !! 1 = Some [PStr "P001"; PInt 34] ∧
  [PStr "P001"; PInt 34] !! 1 = Some (PInt 34) ∧
  cells (append_all rows (new_sheet "Data")) !! (2, 2) = Some (Number 34) ∧
  current_row (append_all rows (new_sheet "Data")) = 2.
Proof.
  intros rows. split; [reflexivity|]. split; [reflexivity|].
  apply (append_rows_in_order rows (new_sheet "Data") 1 1
           [PStr "P001"; PInt 34] (PInt 34)); reflexivity.
Defined.

(** X2.  An append never overwrites: on a sheet whose cells all lie at or
    above the cursor, every cell is still there, unchanged, after any number
    of appends. *)
Theorem append_keeps_cells (rows : list (list PyVal)) (sh : Sheet)
    (a : nat * nat) (x : CellValue) :
  map_Forall (λ b _, b.2 ≤ current_row sh) (cells sh) →
  cells sh !! a = Some x →
  cells (append_all rows sh) !! a = Some x.
Proof.
  intros Hcur Ha. rewrite append_all_frame; [done|].
  exact (Hcur a x Ha).
Qed.

Lemma append_keeps_cells_witness :
  let sh := sheet_append [PStr "Patient ID"; PStr "Age"] (new_sheet "Data") in
  map_Forall (λ b _, b.2 ≤ current_row sh) (cells sh) ∧
  cells sh !! (2, 1) = Some (Text "Age") ∧
  cells (append_all [[PStr "P001"; PInt 34]] sh) !! (2, 1) = Some (Text "Age").
Proof.
  intros sh.
  assert (H : map_Forall (λ b _, b.2 ≤ current_row sh) (cells sh))
    by (apply (bool_decide_unpack _); vm_compute; exact I).
  split; [exact H|]. split; [reflexivity|].
  apply (append_keeps_cells [[PStr "P001"; PInt 34]] sh (2, 1) (Text "Age") H).
  reflexivity.
Defined.

(** ** The invariant of the workbook API *)

Lemma tag_ok_bind_value (v : PyVal) : tag_ok (bind_value v).
Proof.
  destruct v as [s|n]; simpl; [|done].
  by destruct (String.prefix "=" s) eqn:E.
Qed.

Lemma sheet_inv_new (name : string) : sheet_inv (new_sheet name).
Proof. unfold sheet_inv. simpl. apply map_Forall_empty. Qed.

Lemma sheet_inv_rename (name : string) (sh : Sheet) :
  sheet_inv sh → sheet_inv (sheet_rename name sh).
Proof. done. Qed.

Lemma sheet_inv_set (a : nat * nat) (v : PyVal) (sh : Sheet) :
  1 ≤ a.1 → 1 ≤ a.2 → sheet_inv sh → sheet_inv (sheet_set a v sh).
Proof.
  intros Hc Hr Hsh. unfold sheet_inv. simpl.
  apply map_Forall_insert_2.
  - split; [done|]. split; [lia|apply tag_ok_bind_value].
  - intros b x Hb. destruct (Hsh b x Hb) as (? & ? & ?).
    split; [done|]. split; [lia|done].
Qed.

Lemma put_row_Forall (P : nat * nat → CellValue → Prop) (row col : nat)
    (vs : list PyVal) (m : gmap (nat * nat) CellValue) :
  (∀ c v, col ≤ c → P (c, row) (bind_value v)) →
  map_Forall P m → map_Forall P (put_row row col vs m).
Proof.
  revert col m. induction vs as [|v vs IH]; intros col m Hnew Hm; [done|].
  simpl. apply IH.
  - intros c x Hc. apply Hnew. lia.
  - apply map_Forall_insert_2; [by apply Hnew|done].
Qed.

Lemma sheet_inv_append (vs : list PyVal) (sh : Sheet) :
  sheet_inv sh → sheet_inv (sheet_append vs sh).
Proof.
  intros Hsh. unfold sheet_inv. simpl. apply put_row_Forall.
  - intros c v Hc. simpl. split; [done|]. split; [lia|apply tag_ok_bind_value].
  - intros b x Hb. destruct (Hsh b x Hb) as (? & ? & ?).
    split; [done|]. split; [lia|done].
Qed.

(** Rules for sequencing construction steps. *)
Lemma triple_bind {A B : Type} (P : Workbook → Prop) (m : Build A)
    (Q : A → Workbook → Prop) (f : A → Build B) (R : B → Workbook → Prop) :
  triple P m Q → (∀ x, triple (Q x) (f x) R) → triple P (m ≫= f) R.
Proof.
  intros Hm Hf wb HP.
  destruct (Hm wb HP) as (x & wb1 & E1 & HQ).
  destruct (Hf x wb1 HQ) as (y & wb2 & E2 & HR).
  exists y, wb2. split; [|done].
  unfold mbind, Build_bind. by rewrite E1.
Qed.

Lemma triple_consequence {A : Type} (P P' : Workbook → Prop) (m : Build A)
    (Q Q' : A → Workbook → Prop) :
  (∀ wb, P' wb → P wb) → triple P m Q → (∀ x wb, Q x wb → Q' x wb) →
  triple P' m Q'.
Proof.
  intros HP Hm HQ wb HP'.
  destruct (Hm wb (HP wb HP')) as (x & wb' & E & H).
  exists x, wb'. split; [done|]. by apply HQ.
Qed.

(** Specifications of the five calls the routines make. *)
Lemma active_spec :
  triple workbook_inv active (λ ws wb, workbook_inv wb ∧ valid_handle ws wb).
Proof.
  intros wb Hwb. exists (active_index wb), wb. split; [done|].
  split; [done|]. apply Hwb.
Qed.

Lemma update_sheet_spec (ws : nat) (f : Sheet → Sheet) :
  (∀ sh, sheet_inv sh → sheet_inv (f sh)) →
  triple (λ wb, workbook_inv wb ∧ valid_handle ws wb)
         (update_sheet ws f)
         (λ _ wb, workbook_inv wb ∧ valid_handle ws wb).
Proof.
  intros Hf wb [[Hsheets Hactive] Hws].
  destruct (lookup_lt_is_Some_2 (sheets wb) ws Hws) as [sh Hsh].
  eexists tt, _. split; [unfold update_sheet; by rewrite Hsh|].
  unfold workbook_inv, valid_handle. simpl. rewrite length_insert.
  split; [|done]. split; [|done].
  apply Forall_insert; [done|]. apply Hf.
  by eapply (proj1 (Forall_lookup _ _) Hsheets).
Qed.

Lemma set_title_spec (ws : nat) (name : string) :
  name ≠ EmptyString →
  invalid_title_search name = None →
  triple (λ wb, workbook_inv wb ∧ valid_handle ws wb)
         (set_title ws name)
         (λ _ wb, workbook_inv wb ∧ valid_handle ws wb).
Proof.
  intros Hne Hchars wb [Hinv Hws].
  destruct (lookup_lt_is_Some_2 (sheets wb) ws Hws) as [sh Hsh].
  destruct (checked_title_valid (sheetnames wb) (title sh) name Hne Hchars)
    as (value' & E & _).
  unfold set_title. rewrite Hsh, E.
  by apply (update_sheet_spec ws (sheet_rename value')
              (sheet_inv_rename value')).
Qed.

Lemma append_spec (ws : nat) (vs : list PyVal) :
  triple (λ wb, workbook_inv wb ∧ valid_handle ws wb)
         (append ws vs)
         (λ _ wb, workbook_inv wb ∧ valid_handle ws wb).
Proof. apply update_sheet_spec, sheet_inv_append. Qed.

Lemma setitem_spec (ws : nat) (coord : string) (v : PyVal) :
  is_Some (coordinate_from_string coord) →
  triple (λ wb, workbook_inv wb ∧ valid_handle ws wb)
         (setitem ws coord v)
         (λ _ wb, workbook_inv wb ∧ valid_handle ws wb).
Proof.
  intros [a Ha]. unfold setitem. rewrite Ha.
  destruct (coordinate_from_string_row coord a Ha).
  apply update_sheet_spec. intros sh. by apply sheet_inv_set.
Qed.

Lemma create_sheet_spec (name : string) (ws : nat) :
  invalid_title_search name = None →
  triple (λ wb, workbook_inv wb ∧ valid_handle ws wb)
         (create_sheet name)
         (λ ws' wb, workbook_inv wb ∧ valid_handle ws' wb).
Proof.
  intros Hchars wb [[Hsheets Hactive] _]. unfold create_sheet.
  set (value := if bool_decide (name = EmptyString) then "Sheet" else name).
  assert (Hvalue : value ≠ EmptyString ∧ invalid_title_search value = None).
  { unfold value. destruct (bool_decide (name = EmptyString)) eqn:E.
    - by split.
    - by apply bool_decide_eq_false in E. }
  destruct Hvalue as [Hne Hok].
  destruct (checked_title_valid (sheetnames wb) EmptyString value Hne Hok)
    as (value' & E & _).
  rewrite E. eexists _, _. split; [done|].
  unfold workbook_inv, valid_handle. simpl. rewrite length_app. simpl.
  split; [|lia]. split; [|lia].
  apply Forall_app. split; [done|].
  apply Forall_singleton, sheet_inv_new.
Qed.

Ltac build_step :=
  first
    [ apply set_title_spec; [done|reflexivity]
    | apply append_spec
    | apply setitem_spec; by eexists
    | apply create_sheet_spec; reflexivity ].

Lemma triple_drop_handle {A : Type} (P : Workbook → Prop) (m : Build A)
    (H : A → Workbook → Prop) :
  triple P m (λ x wb, workbook_inv wb ∧ H x wb) →
  triple P m (λ _ wb, workbook_inv wb).
Proof.
  intros Hm. eapply triple_consequence; [|exact Hm|]; [done|].
  by intros x wb [? _].
Qed.

Ltac build_steps :=
  repeat first
    [ eapply triple_bind; [build_step | intros ?]
    | eapply triple_drop_handle; build_step ].


(** ** Every run of the entry point *)

(** The three ways a run can go, by what the sink answers. *)
Lemma main_outcome {Disk : Type}
    (sink : Workbook → string → Disk → option Exception * Disk)
    (w : World Disk) :
  (∃ e d,
      sink wb_old "test_old.xlsx" (disk w) = (Some e, d) ∧
      main sink w
      = (inl e,
         {| disk := d;
            trace := trace w ++
              [NewWorkbook; SaveCall "test_old.xlsx" wb_old] |})) ∨
  (∃ d1 e d2,
      sink wb_old "test_old.xlsx" (disk w) = (None, d1) ∧
      sink wb_new "test_new.xlsx" d1 = (Some e, d2) ∧
      main sink w
      = (inl e,
         {| disk := d2;
            trace := trace w ++
              [NewWorkbook; SaveCall "test_old.xlsx" wb_old;
               PrintLine "Created test_old.xlsx";
               NewWorkbook; SaveCall "test_new.xlsx" wb_new] |})) ∨
  (∃ d1 d2,
      sink wb_old "test_old.xlsx" (disk w) = (None, d1) ∧
      sink wb_new "test_new.xlsx" d1 = (None, d2) ∧
      main sink w
      = (inr tt,
         {| disk := d2;
            trace := trace w ++
              [NewWorkbook; SaveCall "test_old.xlsx" wb_old;
               PrintLine "Created test_old.xlsx";
               NewWorkbook; SaveCall "test_new.xlsx" wb_new;
               PrintLine "Created test_new.xlsx";
               PrintLine "Done! Run:";
               PrintLine "  xlsx-review --diff test_old.xlsx test_new.xlsx";
               PrintLine "  xlsx-review --textconv test_new.xlsx"] |})).
Proof.
  destruct (sink wb_old "test_old.xlsx" (disk w)) as [[e|] d1] eqn:H1.
  { left. exists e, d1. split; [done|]. unfold main.
    by rewrite IO_bind_unfold, (create_old_raises sink w e d1 H1). }
  right.
  destruct (sink wb_new "test_new.xlsx" d1) as [[e|] d2] eqn:H2.
  - left. exists d1, e, d2. split; [done|]. split; [done|]. unfold main.
    rewrite IO_bind_unfold, (create_old_ok sink w d1 H1).
    rewrite IO_bind_unfold, (create_new_raises sink _ e d2) by done.
    simpl. by rewrite <- !app_assoc.
  - right. exists d1, d2. split; [done|]. split; [done|]. unfold main.
    rewrite IO_bind_unfold, (create_old_ok sink w d1 H1).
    rewrite IO_bind_unfold, (create_new_ok sink _ d2) by done.
    unfold print, record, mbind, IO_bind. simpl. by rewrite <- !app_assoc.
Qed.




(** ** Coherence of the fixture pair *)

Lemma delta_cells_differ (name : string) :
  name ∈ ["Data"; "Summary"] →
  ∃ old new, find_sheet name wb_old = Some old ∧
             find_sheet name wb_new = Some new ∧
             map_Forall
               (λ a v, is_delta name a = false ∨ cells new !! a ≠ Some v)
               (cells old).
Proof.
  intros Hname.
  apply elem_of_cons in Hname as [-> | Hname];
    [|apply list_elem_of_singleton in Hname as ->].
  - do 2 eexists. split; [by vm_compute|]. split; [by vm_compute|].
    compute_done.
  - do 2 eexists. split; [by vm_compute|]. split; [by vm_compute|].
    compute_done.
Qed.

(** X6.  The enumerated delta is exact: on the shared sheets, a delta cell
    that is populated in both workbooks holds different values in "old" and
    in "new" (the changes the comments of [create_new] announce are all
    there). *)
Theorem delta_cells_changed (name : string) (a : nat * nat)
    (v_old v_new : CellValue) :
  name ∈ ["Data"; "Summary"] →
  is_delta name a = true →
  value_at wb_old name a = Some v_old →
  value_at wb_new name a = Some v_new →
  v_old ≠ v_new.
Proof.
  intros Hname Hdelta Hold Hnew.
  destruct (delta_cells_differ name Hname) as (old & new & Eo & En & Hdiff).
  unfold value_at in Hold, Hnew. rewrite Eo in Hold. rewrite En in Hnew.
  simpl in Hold, Hnew.
  destruct (Hdiff a v_old Hold) as [H | H]; congruence.
Qed.

Lemma delta_cells_changed_witness :
  "Summary" ∈ ["Data"; "Summary"] ∧
  is_delta "Summary" (1, 4) = true ∧
  value_at wb_old "Summary" (1, 4) = Some (Text "Mean Score") ∧
  value_at wb_new "Summary" (1, 4) = Some (Text "Median Score") ∧
  Text "Mean Score" ≠ Text "Median Score".
Proof.
  split; [compute_done|]. split; [reflexivity|].
  split; [vm_compute; reflexivity|]. split; [vm_compute; reflexivity|].
  apply (delta_cells_changed "Summary" (1, 4)).
  - compute_done.
  - reflexivity.
  - vm_compute; reflexivity.
  - vm_compute; reflexivity.
Defined.

Lemma shared_sheets_domains :
  ∃ data_old data_new summary_old summary_new,
    find_sheet "Data" wb_old = Some data_old ∧
    find_sheet "Data" wb_new = Some data_new ∧
    find_sheet "Summary" wb_old = Some summary_old ∧
    find_sheet "Summary" wb_new = Some summary_new ∧
    dom (cells data_new)
      = dom (cells data_old) ∪ list_to_set [(1, 7); (2, 7); (3, 7); (4, 7)] ∧
    set_Forall (λ a : nat * nat, a.2 ≠ 7) (dom (cells data_old)) ∧
    dom (cells summary_new) = dom (cells summary_old).
Proof.
  do 4 eexists. do 4 (split; [by vm_compute|]).
  split; [by vm_compute|]. split; [compute_done|by vm_compute].
Qed.

(** X7.  Nothing is removed and nothing else is added: on the shared sheets
    an address is populated in "old" exactly when it is populated in "new"
    and is not in row 7 of "Data". *)
Theorem no_cell_removed (name : string) (a : nat * nat) :
  name ∈ ["Data"; "Summary"] →
  is_Some (value_at wb_old name a) ↔
  is_Some (value_at wb_new name a) ∧ ¬ (name = "Data" ∧ a.2 = 7).
Proof.
  intros Hname.
  destruct shared_sheets_domains
    as (d_o & dn & so & sn & Edo & Edn & Eso & Esn & Hdata & Hrow & Hsum).
  unfold value_at.
  apply elem_of_cons in Hname as [-> | Hname];
    [|apply list_elem_of_singleton in Hname as ->].
  - rewrite Edo, Edn. simpl. rewrite <- !elem_of_dom, Hdata.
    rewrite elem_of_union, elem_of_list_to_set. split.
    + intros Ha. split; [by left|]. intros [_ H7]. by apply (Hrow a Ha).
    + intros [[Ha | Ha] H7]; [done|]. exfalso. apply H7. split; [done|].
      rewrite !elem_of_cons, elem_of_nil in Ha.
      destruct Ha as [-> | [-> | [-> | [-> | []]]]]; done.
  - rewrite Eso, Esn. simpl. rewrite <- !elem_of_dom, Hsum. split.
    + intros Ha. split; [done|]. by intros [? _].
    + by intros [Ha _].
Qed.

Lemma no_cell_removed_witness :
  "Data" ∈ ["Data"; "Summary"] ∧
  is_Some (value_at wb_old "Data" (2, 6)) ∧
  is_Some (value_at wb_new "Data" (2, 6)) ∧
  ¬ is_Some (value_at wb_old "Data" (2, 7)) ∧
  is_Some (value_at wb_new "Data" (2, 7)).
Proof.
  assert (Hd : "Data" ∈ ["Data"; "Summary"]) by compute_done.
  split; [exact Hd|].
  split; [vm_compute; eexists; reflexivity|].
  split; [apply (proj1 (no_cell_removed "Data" (2, 6) Hd));
          vm_compute; eexists; reflexivity|].
  split; [|vm_compute; eexists; reflexivity].
  intros H. apply (proj1 (no_cell_removed "Data" (2, 7) Hd)) in H.
  destruct H as [_ H]. apply H. split; reflexivity.
Defined.

(** X8.  In both workbooks the Summary sheet describes the Data sheet next to
    it: the count in B2 is the number of records, the records fill rows 2 to
    the cursor without a gap, and each formula ranges over one column (B or
    C) of "Data" from row 2 to the last record. *)
Theorem summaries_match_data :
  summary_matches_data wb_old ∧ summary_matches_data wb_new.
Proof.
  split.
  - do 2 eexists. split; [by vm_compute|]. split; [by vm_compute|].
    split; [by vm_compute|]. split; [by vm_compute|]. compute_done.
  - do 2 eexists. split; [by vm_compute|]. split; [by vm_compute|].
    split; [by vm_compute|]. split; [by vm_compute|]. compute_done.
Qed.

(** X9.  In both workbooks the Data sheet is a table: every populated row has
    exactly the columns A to D; the header row is text and every record is a
    text, two numbers and a text; the identifiers in column A are pairwise
    distinct, one per record. *)
Theorem data_sheets_are_tables :
  data_is_table wb_old ∧ data_is_table wb_new.
Proof.
  split.
  - eexists. split; [by vm_compute|]. split; [compute_done|].
    split; [compute_done|]. split; [by vm_compute|]. compute_done.
  - eexists. split; [by vm_compute|]. split; [compute_done|].
    split; [compute_done|]. split; [by vm_compute|]. compute_done.
Qed.
